(** * mobilier-be: user routes, furniture service and id-not-found exception

    A shallow embedding of three TypeScript sources:
    - [exceptions/idNotFound.exception.ts]
    - [furniture/service/furniture.services.ts]
    - the user router (express routes of the user resource).

    JavaScript values are an inductive type, objects are finite maps from
    property names to values, numbers are IEEE doubles ([spec_float]).
    An [async] handler is a state-and-error computation over the data
    store together with a log of the service calls it awaited. *)

From Stdlib Require Import ZArith String List Bool Lia.
From Stdlib Require Import Floats.SpecFloat.
From stdpp Require Import base option gmap strings list.

Set Warnings "-register-all".
Local Open Scope string_scope.

(** ** JavaScript values *)

(** A JS number is an IEEE 754 double. *)
Abbreviation number := spec_float.

Definition NaN : number := S754_nan.
Definition num_0 : number := S754_zero false.
Definition num_1 : number := S754_finite false 4503599627370496 (-52).
Definition num_5 : number := S754_finite false 5629499534213120 (-50).

Inductive Value :=
| VUndefined
| VNull
| VBool (b : bool)
| VNum (n : number)
| VStr (s : string)
| VArr (items : list Value)
| VObj (props : gmap string Value).

(** Property read [o.k] on an object: a missing property is [undefined]. *)
Definition get (o : gmap string Value) (k : string) : Value :=
  default VUndefined (o !! k).

(** Property read on an arbitrary value that is neither [undefined] nor
    [null] (none of the property names read by the router exist on
    primitives or arrays). *)
Definition prop (v : Value) (k : string) : Value :=
  match v with
  | VObj o => get o k
  | _ => VUndefined
  end.

(** ECMAScript [ToBoolean]. *)
Definition number_truthy (n : number) : bool :=
  match n with
  | S754_nan | S754_zero _ => false
  | _ => true
  end.

Definition ToBoolean (v : Value) : bool :=
  match v with
  | VUndefined | VNull => false
  | VBool b => b
  | VNum n => number_truthy n
  | VStr s => negb (String.eqb s EmptyString)
  | VArr _ | VObj _ => true
  end.

(** [a || b] on numbers and on values. *)
Definition or_number (a b : number) : number :=
  if number_truthy a then a else b.

Definition or_value (a b : Value) : Value :=
  if ToBoolean a then a else b.

(** ** HTTP status codes and typed exceptions *)

(** Modelled from the spec: [enums/httpStatus.enum] is not among the
    sources; the codes are the ones the interface section gives for each
    response (200, 201, 204, 404 and the 422 class of validation
    failures). *)
Module HttpStatus.
Definition OK : Z := 200.
Definition CREATED : Z := 201.
Definition NO_CONTENT : Z := 204.
Definition NOT_FOUND : Z := 404.
Definition UNPROCESSABLE_ENTITY : Z := 422.
End HttpStatus.

(** Modelled from the spec: the base class [HttpExceptions] is not among the
    sources; a typed exception carries the status and the message its
    constructor receives. *)
Record HttpExceptions := mkHttpExceptions {
  status : Z;
  message : string
}.

(** [constructor(message = '') { super(HttpStatus.NOT_FOUND, message); }]
    The argument is [None] when the caller passes nothing (or [undefined]),
    in which case the default initialiser applies. *)
Definition IdNotFoundException (message : option string) : HttpExceptions :=
  let message := default EmptyString message in
  mkHttpExceptions HttpStatus.NOT_FOUND message.

(** What a [throw] can carry. *)
Inductive Thrown :=
| HttpError (e : HttpExceptions)
| TypeError (msg : string)
| OtherError (v : Value).

(** [Pagination] interface: [{ page: number, size: number }]. *)
Record Pagination := mkPagination {
  page : number;
  size : number
}.

(** ** Furniture service *)

(** [FurnitureRepository] is imported by the service but is not among the
    sources: its five methods are an interface over the repository object,
    each returning whatever the data access returns (a promise). *)
Module FurnitureRepository.
Class Methods (Repo Furniture Result : Type) := {
  getAllFurnitures : Repo -> Pagination -> string -> Result;
  getAFurnitureById : Repo -> string -> Result;
  addAFurniture : Repo -> Furniture -> Result;
  modifyAFurnitureById : Repo -> string -> number -> number -> Result;
  deleteAFurnitureById : Repo -> string -> Result
}.
End FurnitureRepository.

Module FurnitureService.

(** The only instance field: [private repository: FurnitureRepository]. *)
Record t (Repo : Type) := mk { repository : Repo }.
Arguments mk {Repo} _.
Arguments repository {Repo} _.

Section Methods.
Context {Repo Furniture Result : Type}.
Context `{!FurnitureRepository.Methods Repo Furniture Result}.

Definition getAllFurnitures (this : t Repo)
    (pagination : Pagination) (sorting : string) : Result :=
  FurnitureRepository.getAllFurnitures (repository this) pagination sorting.

Definition getAFurnitureById (this : t Repo) (id : string) : Result :=
  FurnitureRepository.getAFurnitureById (repository this) id.

Definition addAFurniture (this : t Repo) (furniture : Furniture) : Result :=
  FurnitureRepository.addAFurniture (repository this) furniture.

Definition modifyAFurnitureById (this : t Repo)
    (id : string) (cost stock : number) : Result :=
  FurnitureRepository.modifyAFurnitureById (repository this) id cost stock.

Definition deleteAFurnitureById (this : t Repo) (id : string) : Result :=
  FurnitureRepository.deleteAFurnitureById (repository this) id.
End Methods.

(** *** The static [instance] field and object identity

    Objects live on a heap and are compared by reference. *)
Definition ref := nat.

Inductive Obj :=
| ORepository
| OService (this : t ref).

Record Statics := mkStatics {
  heap : gmap ref Obj;
  repository_instance : option ref;   (* FurnitureRepository.instance *)
  instance : option ref               (* FurnitureService.instance *)
}.

(** [new C(...)]: a reference that is not on the heap yet. *)
Definition alloc (o : Obj) (s : Statics) : ref * Statics :=
  let l := fresh (dom (heap s)) in
  (l, mkStatics (<[l := o]> (heap s)) (repository_instance s) (instance s)).

(** Modelled from the spec: [FurnitureRepository.getInstance] is not among
    the sources; the repository class holds a lazily-constructed singleton
    reference like the service does. *)
Definition repository_getInstance (s : Statics) : ref * Statics :=
  match repository_instance s with
  | Some l => (l, s)
  | None =>
      let '(l, s1) := alloc ORepository s in
      (l, mkStatics (heap s1) (Some l) (instance s1))
  end.

(** [new FurnitureService()], whose constructor is
    [{ this.repository = FurnitureRepository.getInstance(); }]: the object is
    put on the heap with its field initialised. *)
Definition new (s : Statics) : ref * Statics :=
  let '(repo, s1) := repository_getInstance s in
  alloc (OService (mk repo)) s1.

(** [if (!FurnitureService.instance) { FurnitureService.instance = new
    FurnitureService(); } return FurnitureService.instance;]
    A reference is truthy, [undefined] ([None]) is not. *)
Definition getInstance (s : Statics) : ref * Statics :=
  match instance s with
  | Some l => (l, s)
  | None =>
      let '(l, s1) := new s in
      (l, mkStatics (heap s1) (repository_instance s1) (Some l))
  end.

(** [n] successive calls, with the references they return. *)
Fixpoint getInstance_seq (n : nat) (s : Statics) : list ref * Statics :=
  match n with
  | O => ([], s)
  | S n' =>
      let '(l, s1) := getInstance s in
      let '(ls, s2) := getInstance_seq n' s1 in
      (l :: ls, s2)
  end.

End FurnitureService.

(** ** The user router: requests, responses, middleware results *)

(** Modelled from the spec: [enums/roles.enum] is not among the sources; the
    glossary names the two access-control tags USER and ADMIN. *)
Module Roles.
Definition USER : string := "USER".
Definition ADMIN : string := "ADMIN".
End Roles.

(** The request objects the router reads; each is a JS object. The body is
    the parsed one: a request that no body parser has handled, whose
    [req.body] is [undefined], is not represented. *)
Record Request := mkRequest {
  body : gmap string Value;
  cookies : gmap string Value;
  headers : gmap string Value;
  params : gmap string Value;
  query : gmap string Value
}.

(** An entry of express-validator's validation result. *)
Record ValidationError := mkValidationError {
  location : string;
  param : string;
  value : Value;
  msg : string
}.

Inductive Body :=
| NoBody                                   (* [.send()] *)
| Json (v : Value)                         (* [.json(v)] *)
| Errors (errs : list ValidationError).    (* validation result *)

Record Response := mkResponse {
  res_status : Z;
  res_body : Body
}.

(** How the handling of a request by a middleware or handler ends:
    a response was sent, [next(error)] was called, or the promise of the
    [async] function was rejected (the error left the function). *)
Inductive Outcome :=
| Responded (r : Response)
| NextError (e : Thrown)
| Rejected (e : Thrown).

(** Calls on the user service, as logged when they are awaited. *)
Inductive Call :=
| GetAllUsers (pagination : Pagination) (sorting : Value)
| GetAUserById (id : Value)
| GetAUserByEmail (email password : Value)
| AddAUser (user : Value)
| AddAnUserAddress (id : Value) (address : Value)
| ModifyAUserById (id : Value) (user : Value)
| DeleteAUserById (id : Value).

(** The data store behind the service, and the log of service calls. *)
Record World (Store : Type) := mkWorld {
  store : Store;
  calls : list Call
}.
Arguments mkWorld {Store} _ _.
Arguments store {Store} _.
Arguments calls {Store} _.

(** An awaited promise: it settles with a value or a thrown error and may
    change the store. *)
Definition Async (Store A : Type) : Type := Store -> (Thrown + A) * Store.

(** [UserService] is not among the sources: its methods, as the router
    calls them on [UserService.getInstance()]. *)
Record UserService (Store : Type) := mkUserService {
  getAllUsers : Pagination -> Value -> Async Store Value;
  getAUserById : Value -> Async Store Value;
  getAUserByEmail : Value -> Value -> Async Store Value;
  addAUser : Value -> Async Store Value;
  addAnUserAddress : Value -> Value -> Async Store Value;
  modifyAUserById : Value -> Value -> Async Store Value;
  deleteAUserById : Value -> Async Store Value
}.
Arguments mkUserService {Store} _ _ _ _ _ _ _.
Arguments getAllUsers {Store} _ _ _.
Arguments getAUserById {Store} _ _.
Arguments getAUserByEmail {Store} _ _ _.
Arguments addAUser {Store} _ _.
Arguments addAnUserAddress {Store} _ _ _.
Arguments modifyAUserById {Store} _ _ _.
Arguments deleteAUserById {Store} _ _.

(** The request with another body. *)
Definition with_body (req : Request) (b : gmap string Value) : Request :=
  mkRequest b (cookies req) (headers req) (params req) (query req).

(** What the router depends on and the sources do not contain: built-ins of
    the JS runtime, validators of validator.js, middlewares of this
    repository, and the service. A token middleware either passes the
    request on with new [res.locals] or ends it; [passwordExists] either
    passes it on, possibly recording validation errors, or ends it. None of
    them touches the store. *)
Record Env (Store : Type) := mkEnv {
  StringToNumber : string -> number;
  NumberToString : number -> string;
  isMongoId : Value -> bool;
  isEmpty : Value -> bool;
  extractToken : Request -> gmap string Value -> gmap string Value + Outcome;
  verifyToken : Request -> gmap string Value -> gmap string Value + Outcome;
  passwordExists : Request -> list ValidationError + Outcome;
  roleError : list string -> Value -> Thrown;
  service : UserService Store
}.
Arguments mkEnv {Store} _ _ _ _ _ _ _ _ _.
Arguments StringToNumber {Store} _ _.
Arguments NumberToString {Store} _ _.
Arguments isMongoId {Store} _ _.
Arguments isEmpty {Store} _ _.
Arguments extractToken {Store} _ _ _.
Arguments verifyToken {Store} _ _ _.
Arguments passwordExists {Store} _ _.
Arguments roleError {Store} _ _ _.
Arguments service {Store} _.

(** ** Handler computations *)

Section Handlers.
Context {Store : Type} (env : Env Store).

(** The body of an [async] function: it reads and updates the world and
    either returns or throws. *)
Definition M (A : Type) : Type := World Store -> (Thrown + A) * World Store.

Definition ret {A} (a : A) : M A := fun w => (inr a, w).

Definition throw {A} (e : Thrown) : M A := fun w => (inl e, w).

Definition bind {A B} (m : M A) (k : A -> M B) : M B :=
  fun w =>
    match m w with
    | (inr a, w1) => k a w1
    | (inl e, w1) => (inl e, w1)
    end.

(** A synchronous step that may throw. *)
Definition lift {A} (r : Thrown + A) : M A := fun w => (r, w).

(** [await service.method(...)]: the call is logged, the promise is run
    against the store, a rejection is rethrown. *)
Definition await (c : Call) (p : Async Store Value) : M Value :=
  fun w =>
    let '(r, st) := p (store w) in
    (r, mkWorld st (calls w ++ [c])).

(** [try { ...; res.status(s).json(b) } catch (error) { next(error) }] *)
Definition try_catch_next (block : M Response) : M Outcome :=
  fun w =>
    match block w with
    | (inr r, w1) => (inr (Responded r), w1)
    | (inl e, w1) => (inr (NextError e), w1)
    end.

(** Running the [async] function: an error nothing caught rejects its
    promise. *)
Definition async_fn (fn : M Outcome) : World Store -> Outcome * World Store :=
  fun w =>
    match fn w with
    | (inr o, w1) => (o, w1)
    | (inl e, w1) => (Rejected e, w1)
    end.

(** *** Conversions of the JS runtime *)

Definition join_item (to_string : Value -> string) (v : Value) : string :=
  match v with
  | VUndefined | VNull => EmptyString
  | _ => to_string v
  end.

Fixpoint ToString (v : Value) : string :=
  match v with
  | VUndefined => "undefined"
  | VNull => "null"
  | VBool true => "true"
  | VBool false => "false"
  | VNum n => NumberToString env n
  | VStr s => s
  | VArr items => String.concat "," (map (join_item ToString) items)
  | VObj _ => "[object Object]"
  end.

(** [Number(v)], for a value whose conversion to a primitive returns: the
    values a JSON body or a query string give are never callable, so an
    object is ["[object Object]"] unless it carries a [toString] property of
    its own, in which case the conversion throws (see [converts]). *)
Definition Number (v : Value) : number :=
  match v with
  | VUndefined => NaN
  | VNull => num_0
  | VBool true => num_1
  | VBool false => num_0
  | VNum n => n
  | VStr s => StringToNumber env s
  | VArr _ | VObj _ => StringToNumber env (ToString v)
  end.

(** An object whose own [toString] property hides the inherited method
    (as [?page[toString]=x] gives when the query parser lets such keys
    through) cannot be turned into a primitive, and neither can an array
    that holds one, since joining the array converts its items. *)
Fixpoint unconvertible (v : Value) : bool :=
  match v with
  | VObj props =>
      match props !! "toString" with
      | Some _ => true
      | None => false
      end
  | VArr items => existsb unconvertible items
  | _ => false
  end.

(** Whether [Number(v)] (or a string conversion of [v]) returns or throws. *)
Definition converts (v : Value) : Thrown + unit :=
  if unconvertible v
  then inl (TypeError "Cannot convert object to primitive value")
  else inr tt.

(** *** Role check *)

Definition role_is (v : Value) (role : string) : bool :=
  match v with
  | VStr s => String.eqb s role
  | _ => false
  end.

(** Modelled from the spec: [middlewares/validRole.middlewares] is not
    among the sources; the role check tests the caller's role for
    membership in the allow-list and rejects a caller that is not on it. *)
Definition validRole (admittedRoles : list string) (payload : Value)
    : Thrown + unit :=
  if existsb (role_is (prop payload "role")) admittedRoles
  then inr tt
  else inl (roleError env admittedRoles payload).

(** [const { payload } = res.locals.payload;] destructuring [undefined]
    or [null] throws. *)
Definition locals_payload (locals : gmap string Value) : Thrown + Value :=
  match get locals "payload" with
  | VUndefined | VNull =>
      inl (TypeError "Cannot destructure property 'payload'")
  | v => inr (prop v "payload")
  end.

Definition json (s : Z) (k : string) (v : Value) : Response :=
  mkResponse s (Json (VObj {[ k := v ]})).

(** *** GET / *)

Definition pagination_of (req : Request) : Pagination :=
  mkPagination
    (or_number (Number (get (query req) "page")) num_0)
    (or_number (Number (get (query req) "size")) num_5).

Definition sorting_of (req : Request) : Value :=
  or_value (get (query req) "sort_by") (VStr "+name").

(** The two [Number(...)] calls of the pagination come first and are not
    inside the [try]: when one throws, the promise is rejected; when both
    return, the pagination is [pagination_of req]. *)
Definition get_root (req : Request) (locals : gmap string Value)
    : World Store -> Outcome * World Store :=
  async_fn (
    bind (lift (converts (get (query req) "page"))) (fun _ =>
    bind (lift (converts (get (query req) "size"))) (fun _ =>
    let pagination := pagination_of req in
    let sorting := sorting_of req in
    let admittedRoles := [Roles.ADMIN] in
    bind (lift (locals_payload locals)) (fun payload =>
    try_catch_next (
      bind (lift (validRole admittedRoles payload)) (fun _ =>
      bind (await (GetAllUsers pagination sorting)
              (getAllUsers (service env) pagination sorting)) (fun users =>
      ret (json HttpStatus.OK "users" users)))))))).

(** *** GET /:id *)

Definition get_id (req : Request) (locals : gmap string Value)
    : World Store -> Outcome * World Store :=
  async_fn (
    let admittedRoles := [Roles.USER; Roles.ADMIN] in
    bind (lift (locals_payload locals)) (fun payload =>
    let id := get (params req) "id" in
    try_catch_next (
      bind (lift (validRole admittedRoles payload)) (fun _ =>
      bind (await (GetAUserById id) (getAUserById (service env) id)) (fun user =>
      ret (json HttpStatus.OK "user" user)))))).

(** *** POST /login *)

Definition post_login (req : Request) (locals : gmap string Value)
    : World Store -> Outcome * World Store :=
  async_fn (
    let email := get (body req) "email" in
    let password := get (body req) "password" in
    try_catch_next (
      bind (await (GetAUserByEmail email password)
              (getAUserByEmail (service env) email password)) (fun result =>
      ret (json 200 "result" result)))).

(** *** POST / *)

(** The array pattern [address: [first]] takes the first item the value
    yields when iterated; a value that is not iterable throws. *)
Definition first_of (v : Value) : Thrown + Value :=
  match v with
  | VArr items => inr (hd VUndefined items)
  | VStr EmptyString => inr VUndefined
  | VStr (String c _) => inr (VStr (String c EmptyString))
  | _ => inl (TypeError "address is not iterable")
  end.

(** The object pattern [{ country, ... }] throws on [undefined] and
    [null]. *)
Definition object_pattern (v : Value) : Thrown + Value :=
  match v with
  | VUndefined | VNull => inl (TypeError "Cannot destructure property 'country'")
  | _ => inr v
  end.

Definition address_of (src : Value) : Value :=
  VObj {[ "country" := prop src "country";
          "state" := prop src "state";
          "street" := prop src "street";
          "city" := prop src "city";
          "roomNumber" := prop src "roomNumber" ]}.

Definition new_user_of (b : gmap string Value) (first : Value) : Value :=
  VObj {[ "firstName" := get b "firstName";
          "lastName" := get b "lastName";
          "email" := get b "email";
          "password" := get b "password";
          "phone" := get b "phone";
          "role" := get b "role";
          "address" := VArr [address_of first] ]}.

Definition post_root (req : Request) (locals : gmap string Value)
    : World Store -> Outcome * World Store :=
  async_fn (
    bind (lift (first_of (get (body req) "address"))) (fun first =>
    bind (lift (object_pattern first)) (fun first =>
    let user := new_user_of (body req) first in
    bind (await (AddAUser user) (addAUser (service env) user)) (fun result =>
    ret (Responded (json HttpStatus.CREATED "result" result)))))).

(** *** PUT /address/:id *)

Definition put_address_id (req : Request) (locals : gmap string Value)
    : World Store -> Outcome * World Store :=
  async_fn (
    let id := get (params req) "id" in
    let admittedRoles := [Roles.USER] in
    bind (lift (locals_payload locals)) (fun payload =>
    try_catch_next (
      bind (lift (validRole admittedRoles payload)) (fun _ =>
      let address := address_of (VObj (body req)) in
      bind (await (AddAnUserAddress id address)
              (addAnUserAddress (service env) id address)) (fun result =>
      ret (json HttpStatus.OK "result" result)))))).

(** *** PUT /:id *)

(** [const { firstName, lastName, password, phone } = req.body;
    const user: User = { firstName, lastName, password, phone };] *)
Definition modified_user_of (b : gmap string Value) : gmap string Value :=
  {[ "firstName" := get b "firstName";
     "lastName" := get b "lastName";
     "password" := get b "password";
     "phone" := get b "phone" ]}.

Definition put_id (req : Request) (locals : gmap string Value)
    : World Store -> Outcome * World Store :=
  async_fn (
    let id := get (params req) "id" in
    let user := VObj (modified_user_of (body req)) in
    let admittedRoles := [Roles.USER] in
    bind (lift (locals_payload locals)) (fun payload =>
    try_catch_next (
      bind (lift (validRole admittedRoles payload)) (fun _ =>
      bind (await (ModifyAUserById id user)
              (modifyAUserById (service env) id user)) (fun modifiedUser =>
      ret (json HttpStatus.OK "modifiedUser" modifiedUser)))))).

(** *** DELETE /:id *)

Definition delete_id (req : Request) (locals : gmap string Value)
    : World Store -> Outcome * World Store :=
  async_fn (
    let id := get (params req) "id" in
    let admittedRoles := [Roles.USER; Roles.ADMIN] in
    bind (lift (locals_payload locals)) (fun payload =>
    try_catch_next (
      bind (lift (validRole admittedRoles payload)) (fun _ =>
      bind (await (DeleteAUserById id) (deleteAUserById (service env) id)) (fun _ =>
      ret (mkResponse HttpStatus.NO_CONTENT NoBody)))))).

(** *** Validation middlewares *)

Definition defined (v : Value) : bool :=
  match v with
  | VUndefined => false
  | _ => true
  end.

(** The instances of a field that [check(field)] validates: the field is
    looked up in the body, the cookies, the headers, the route parameters
    and the query; every place that has it counts, and when none has it
    the (undefined) body field stands for it. *)
Definition instances (req : Request) (field : string) : list (string * Value) :=
  let everywhere :=
    [ ("body", get (body req) field);
      ("cookies", get (cookies req) field);
      ("headers", get (headers req) field);
      ("params", get (params req) field);
      ("query", get (query req) field) ] in
  match List.filter (fun i => defined i.2) everywhere with
  | [] => [("body", VUndefined)]
  | found => found
  end.

(** [check(field, message).validator()] as a middleware: it records an
    error for each instance the validator refuses and always calls
    [next()]. *)
Definition check (field message : string) (validator : Value -> bool)
    (req : Request) : list ValidationError :=
  flat_map
    (fun i => if validator i.2 then []
              else [mkValidationError i.1 field i.2 message])
    (instances req field).

Definition check_id (req : Request) : list ValidationError :=
  check "id" "it is not a valid id" (isMongoId env) req.

Definition not_empty (v : Value) : bool := negb (isEmpty env v).

(** Modelled from the spec: [fieldsValidator] of
    [middlewares/field-validator.middlewares] is not among the sources;
    validation failures are surfaced as a 422-class response by this
    shared middleware, which otherwise calls [next()] ([None]). *)
Definition fieldsValidator (errs : list ValidationError) : option Outcome :=
  match errs with
  | [] => None
  | _ => Some (Responded (mkResponse HttpStatus.UNPROCESSABLE_ENTITY (Errors errs)))
  end.

(** *** Middleware chains

    A middleware sees the request, the validation errors recorded so far
    and [res.locals]; it calls [next()] or ends the request. *)
Record Ctx := mkCtx {
  errors : list ValidationError;
  locals : gmap string Value
}.

Inductive Step :=
| Next (c : Ctx)
| Done (o : Outcome).

Definition Middleware : Type := Request -> Ctx -> Step.

Definition validation (chain : Request -> list ValidationError) : Middleware :=
  fun req c => Next (mkCtx (errors c ++ chain req) (locals c)).

Definition token
    (mw : Request -> gmap string Value -> gmap string Value + Outcome)
    : Middleware :=
  fun req c =>
    match mw req (locals c) with
    | inl l => Next (mkCtx (errors c) l)
    | inr o => Done o
    end.

Definition passwordExists_mw : Middleware :=
  fun req c =>
    match passwordExists env req with
    | inl more => Next (mkCtx (errors c ++ more) (locals c))
    | inr o => Done o
    end.

Definition fieldsValidator_mw : Middleware :=
  fun req c =>
    match fieldsValidator (errors c) with
    | Some o => Done o
    | None => Next c
    end.

Fixpoint run_middlewares (mws : list Middleware) (req : Request) (c : Ctx)
    : Step :=
  match mws with
  | [] => Next c
  | mw :: rest =>
      match mw req c with
      | Next c1 => run_middlewares rest req c1
      | Done o => Done o
      end
  end.

(** [router.METHOD(path, [middlewares], handler)] *)
Record Route := mkRoute {
  middlewares : list Middleware;
  handler : Request -> gmap string Value -> World Store -> Outcome * World Store
}.

Definition run_route (r : Route) (req : Request) (l : gmap string Value)
    (w : World Store) : Outcome * World Store :=
  match run_middlewares (middlewares r) req (mkCtx [] l) with
  | Done o => (o, w)
  | Next c => handler r req (locals c) w
  end.

Definition router_get_root : Route := mkRoute [] get_root.

Definition router_get_id : Route :=
  mkRoute
    [ validation check_id;
      token (extractToken env);
      token (verifyToken env);
      fieldsValidator_mw ]
    get_id.

Definition router_put_address_id : Route :=
  mkRoute
    [ validation check_id;
      validation (check "country" "The country is required" not_empty);
      validation (check "state" "The state is required" not_empty);
      validation (check "street" "The street is required" not_empty);
      validation (check "city" "The city is required" not_empty);
      fieldsValidator_mw ]
    put_address_id.

Definition router_put_id : Route :=
  mkRoute
    [ validation check_id;
      passwordExists_mw;
      fieldsValidator_mw ]
    put_id.

Definition router_delete_id : Route :=
  mkRoute
    [ validation check_id;
      fieldsValidator_mw ]
    delete_id.



(** The handlers that wrap their service call in [try]/[catch]. *)
Inductive TryCatchHandler :=
| H_get_root | H_get_id | H_post_login | H_put_address_id | H_put_id | H_delete_id.

Definition try_catch_handler (h : TryCatchHandler)
    : Request -> gmap string Value -> World Store -> Outcome * World Store :=
  match h with
  | H_get_root => get_root
  | H_get_id => get_id
  | H_post_login => post_login
  | H_put_address_id => put_address_id
  | H_put_id => put_id
  | H_delete_id => delete_id
  end.
End Handlers.

(** ** A small concrete environment

    Used to run the router on examples: the store counts the operations
    performed on it, the token is the caller's role, and the runtime
    conversions cover the literals the examples use. *)
Module Demo.

Definition Store : Type := nat.

Definition stored (k : string) (v : Value) : Async Store Value :=
  fun st => (inr (VObj {[ k := v ]}), S st).

Definition ok_service : UserService Store :=
  mkUserService
    (fun _ sorting => stored "sortedBy" sorting)
    (fun id => stored "_id" id)
    (fun email _ => stored "email" email)
    (fun user => stored "created" user)
    (fun id _ => stored "_id" id)
    (fun id _ => stored "_id" id)
    (fun id => stored "_id" id).

Definition failing (e : Thrown) : Async Store Value :=
  fun st => (inl e, S st).

Definition failing_service (e : Thrown) : UserService Store :=
  mkUserService
    (fun _ _ => failing e) (fun _ => failing e) (fun _ _ => failing e)
    (fun _ => failing e) (fun _ _ => failing e) (fun _ _ => failing e)
    (fun _ => failing e).

Definition StringToNumber (s : string) : number :=
  if String.eqb s "0" then num_0
  else if String.eqb s "1" then num_1
  else if String.eqb s "5" then num_5
  else NaN.

Definition NumberToString (n : number) : string :=
  match n with
  | S754_zero _ => "0"
  | _ => "NaN"
  end.

Definition is_hex (c : Ascii.ascii) : bool :=
  let n := Ascii.nat_of_ascii c in
  orb (andb (Nat.leb 48 n) (Nat.leb n 57))
    (orb (andb (Nat.leb 65 n) (Nat.leb n 70))
         (andb (Nat.leb 97 n) (Nat.leb n 102))).

Definition isMongoId (v : Value) : bool :=
  match v with
  | VStr s =>
      andb (Nat.eqb (String.length s) 24)
           (forallb is_hex (list_ascii_of_string s))
  | _ => false
  end.

Definition isEmpty (v : Value) : bool :=
  match v with
  | VUndefined | VNull | VStr EmptyString => true
  | _ => false
  end.

Definition unauthorized : Thrown :=
  HttpError (mkHttpExceptions 401 "Unauthorized").

Definition forbidden : Thrown :=
  HttpError (mkHttpExceptions 403 "Forbidden").

(** Ends a request that has no authorization header. *)
Definition extractToken (req : Request) (l : gmap string Value)
    : gmap string Value + Outcome :=
  match get (headers req) "authorization" with
  | VUndefined => inr (NextError unauthorized)
  | t => inl (<[ "token" := t ]> l)
  end.

(** The token decodes to [{ payload: { role: token } }]. *)
Definition verifyToken (req : Request) (l : gmap string Value)
    : gmap string Value + Outcome :=
  match get l "token" with
  | VStr role =>
      inl (<[ "payload" := VObj {[ "payload" := VObj {[ "role" := VStr role ]} ]} ]> l)
  | _ => inr (NextError unauthorized)
  end.

Definition passwordExists (req : Request) : list ValidationError + Outcome :=
  match get (body req) "password" with
  | VUndefined =>
      inl [mkValidationError "body" "password" VUndefined "The password is required"]
  | _ => inl []
  end.

Definition env (svc : UserService Store) : Env Store :=
  mkEnv StringToNumber NumberToString isMongoId isEmpty
    extractToken verifyToken passwordExists (fun _ _ => forbidden) svc.

Definition id1 : string := "507f1f77bcf86cd799439011".

Definition request (id : string) (hdrs b q : gmap string Value) : Request :=
  mkRequest b ∅ hdrs {[ "id" := VStr id ]} q.

(** [res.locals] as left by a token of the given role. *)
Definition locals_of (role : string) : gmap string Value :=
  {[ "payload" := VObj {[ "payload" := VObj {[ "role" := VStr role ]} ]} ]}.

Definition w0 : World Store := mkWorld 0 [].

Definition new_user_body : gmap string Value :=
  {[ "firstName" := VStr "Ada";
     "lastName" := VStr "Lovelace";
     "email" := VStr "ada@example.org";
     "password" := VStr "correct horse";
     "address" := VArr [VObj {[ "country" := VStr "BE";
                                 "state" := VStr "Brussels";
                                 "street" := VStr "Rue Haute";
                                 "city" := VStr "Brussels" ]}] ]}.

Definition duplicate_email : Thrown :=
  HttpError (mkHttpExceptions 409 "email already in use").

Definition ok_env : Env Store := env ok_service.

(** Every call of the service fails with [duplicate_email]. *)
Definition failing_env : Env Store := env (failing_service duplicate_email).

(** POST / with a body that passes the validators of the route. *)
Definition post_user : Request := mkRequest new_user_body ∅ ∅ ∅ ∅.

(** GET / with page absent and an explicit size of zero. *)
Definition list_request : Request :=
  mkRequest ∅ ∅ ∅ ∅ {[ "size" := VStr "0" ]}.

(** A request to an [:id] route, with a token of role USER. *)
Definition user_request : Request :=
  request id1 {[ "authorization" := VStr Roles.USER ]}
    {[ "firstName" := VStr "Ada";
       "password" := VStr "new password";
       "email" := VStr "eve@example.org";
       "role" := VStr Roles.ADMIN ]} ∅.

Definition token_locals : gmap string Value :=
  {[ "token" := VStr Roles.USER ]}.

Definition verified_locals : gmap string Value :=
  <[ "payload" := VObj {[ "payload" := VObj {[ "role" := VStr Roles.USER ]} ]} ]>
    token_locals.

Definition user_payload : Value := VObj {[ "role" := VStr Roles.USER ]}.

Definition admin_payload : Value := VObj {[ "role" := VStr Roles.ADMIN ]}.

(** A request to an [:id] route whose id is not a Mongo id and that has no
    authorization header. *)
Definition bad_id_request : Request := request "abc" ∅ ∅ ∅.

End Demo.

(** ** States of the furniture singletons *)

Module FurnitureStates.
Import FurnitureService.

(** Before any call both static fields are unset and no object exists. *)
Definition init : Statics := mkStatics ∅ None None.

(** What a program can do with the two classes: call either accessor, or
    call the constructor of the service, which is public. *)
Inductive step : Statics -> Statics -> Prop :=
| step_getInstance (s : Statics) : step s (getInstance s).2
| step_repository_getInstance (s : Statics) : step s (repository_getInstance s).2
| step_new (s : Statics) : step s (new s).2.

Inductive reachable : Statics -> Prop :=
| reachable_init : reachable init
| reachable_step (s s' : Statics) : reachable s -> step s s' -> reachable s'.

(** The service singleton, once set, is a service object whose [repository]
    field is the repository singleton, and the repository singleton, once
    set, is a repository object. *)
Definition consistent (s : Statics) : Prop :=
  (forall l, instance s = Some l ->
     exists r, heap s !! l = Some (OService (mk r))
               /\ repository_instance s = Some r)
  /\ (forall r, repository_instance s = Some r -> heap s !! r = Some ORepository).

End FurnitureStates.

(** ** More requests for the examples *)

Module Fixtures.

(** PUT /address/:id with the four required fields and one more. *)
Definition address_request : Request :=
  Demo.request Demo.id1 ∅
    {[ "country" := VStr "BE";
       "state" := VStr "Brussels";
       "street" := VStr "Rue Haute";
       "city" := VStr "Brussels";
       "owner" := VStr "someone else" ]} ∅.

(** PUT /address/:id with a good id and only a country. *)
Definition country_only_request : Request :=
  Demo.request Demo.id1 ∅ {[ "country" := VStr "BE" ]} ∅.




(** POST / with no address at all. *)
Definition no_address_request : Request :=
  mkRequest {[ "firstName" := VStr "Ada";
               "lastName" := VStr "Lovelace";
               "email" := VStr "ada@example.org";
               "password" := VStr "correct horse" ]} ∅ ∅ ∅ ∅.

Definition home : gmap string Value :=
  {[ "country" := VStr "BE";
     "state" := VStr "Brussels";
     "street" := VStr "Rue Haute";
     "city" := VStr "Brussels" ]}.

Definition office : Value :=
  VObj {[ "country" := VStr "FR";
          "state" := VStr "Nord";
          "street" := VStr "Rue Nationale";
          "city" := VStr "Lille" ]}.

(** The body of a new user who asks for the ADMIN role and gives two
    addresses. *)
Definition admin_body : gmap string Value :=
  {[ "firstName" := VStr "Eve";
     "lastName" := VStr "Adams";
     "email" := VStr "eve@example.org";
     "password" := VStr "long enough";
     "role" := VStr Roles.ADMIN;
     "address" := VArr [VObj home; office] ]}.

End Fixtures.

(** ** The errors PUT /address/:id records *)

(** What the five validation chains of PUT /address/:id record, in the
    order the route lists them. *)
Definition put_address_errors {Store : Type} (env : Env Store) (req : Request)
    : list ValidationError :=
  check_id env req
  ++ check "country" "The country is required" (not_empty env) req
  ++ check "state" "The state is required" (not_empty env) req
  ++ check "street" "The street is required" (not_empty env) req
  ++ check "city" "The city is required" (not_empty env) req.

(** * Properties *)

(** ** The id-not-found exception *)

(** C5: every [IdNotFoundException], whatever the message and also with the
    default (empty) message, carries the status NOT_FOUND, which is 404; the
    message is the one given, or the empty string. *)
Theorem IdNotFoundException_status (msg : option string) :
  status (IdNotFoundException msg) = HttpStatus.NOT_FOUND
  /\ status (IdNotFoundException msg) = 404%Z
  /\ message (IdNotFoundException msg) = default EmptyString msg
  /\ message (IdNotFoundException None) = EmptyString.
Proof.
  destruct msg; repeat split.
Qed.

(** ** The furniture service *)

Section FurnitureForwarding.
Context {Repo Furniture Result : Type}.
Context `{!FurnitureRepository.Methods Repo Furniture Result}.

(** C7: each of the five service methods returns exactly what the method of
    the same name of its repository returns on the same arguments. *)
Theorem FurnitureService_forwards (this : FurnitureService.t Repo) :
  (forall pagination sorting,
      FurnitureService.getAllFurnitures this pagination sorting
      = FurnitureRepository.getAllFurnitures
          (FurnitureService.repository this) pagination sorting)
  /\ (forall id,
      FurnitureService.getAFurnitureById this id
      = FurnitureRepository.getAFurnitureById
          (FurnitureService.repository this) id)
  /\ (forall furniture,
      FurnitureService.addAFurniture this furniture
      = FurnitureRepository.addAFurniture
          (FurnitureService.repository this) furniture)
  /\ (forall id cost stock,
      FurnitureService.modifyAFurnitureById this id cost stock
      = FurnitureRepository.modifyAFurnitureById
          (FurnitureService.repository this) id cost stock)
  /\ (forall id,
      FurnitureService.deleteAFurnitureById this id
      = FurnitureRepository.deleteAFurnitureById
          (FurnitureService.repository this) id).
Proof.
  repeat split.
Qed.
End FurnitureForwarding.

Section Singleton.
Import FurnitureService.

Lemma alloc_fresh o s : heap s !! (alloc o s).1 = None.
Proof.
  unfold alloc; simpl.
  apply not_elem_of_dom, is_fresh.
Qed.

Lemma alloc_lookup o s : heap (alloc o s).2 !! (alloc o s).1 = Some o.
Proof.
  unfold alloc; simpl. apply lookup_insert_eq.
Qed.

Lemma alloc_extends o s l :
  heap (alloc o s).2 !! l = None -> heap s !! l = None.
Proof.
  unfold alloc; simpl. intros H.
  apply lookup_insert_None in H. tauto.
Qed.

Lemma repository_getInstance_extends s l :
  heap (repository_getInstance s).2 !! l = None -> heap s !! l = None.
Proof.
  unfold repository_getInstance.
  destruct (repository_instance s); simpl; [tauto|].
  apply (alloc_extends ORepository).
Qed.

Lemma getInstance_cached s l : instance s = Some l -> getInstance s = (l, s).
Proof.
  unfold getInstance. intros ->. reflexivity.
Qed.

Lemma getInstance_sets s : instance (getInstance s).2 = Some (getInstance s).1.
Proof.
  unfold getInstance.
  destruct (instance s) eqn:E; simpl; [exact E|].
  destruct (new s); reflexivity.
Qed.

Lemma getInstance_seq_cached n s l :
  instance s = Some l -> getInstance_seq n s = (replicate n l, s).
Proof.
  intros E. induction n as [|n IH]; simpl; [reflexivity|].
  rewrite (getInstance_cached s l E), IH. reflexivity.
Qed.

(** C8: from any state of the class, [n] successive calls of
    [getInstance] all return the reference the first call returns; when
    the static field is unset the first call constructs the instance (a
    reference that was not on the heap, now holding a service object) and
    stores it, and once it is set a call returns it and changes nothing. *)
Theorem getInstance_singleton (s : Statics) (n : nat) :
  let l := (getInstance s).1 in
  let s1 := (getInstance s).2 in
  (getInstance_seq n s).1 = replicate n l
  /\ getInstance_seq n s1 = (replicate n l, s1)
  /\ getInstance s1 = (l, s1)
  /\ match instance s with
     | Some l0 => l = l0 /\ s1 = s
     | None =>
         heap s !! l = None
         /\ (exists repo, heap s1 !! l = Some (OService (mk repo)))
         /\ instance s1 = Some l
     end.
Proof.
  intros l s1.
  assert (Hset : instance s1 = Some l) by apply getInstance_sets.
  split; [|split; [|split]].
  - destruct n as [|n]; simpl; [reflexivity|].
    destruct (getInstance s) as [l' s'] eqn:E. simpl in *.
    subst l s1.
    rewrite (getInstance_seq_cached n s' l' Hset). reflexivity.
  - apply getInstance_seq_cached, Hset.
  - apply getInstance_cached, Hset.
  - destruct (instance s) as [l0|] eqn:E.
    + subst l s1. rewrite (getInstance_cached s l0 E). split; reflexivity.
    + split; [|split; [|exact Hset]].
      * subst l. unfold getInstance. rewrite E. unfold new.
        destruct (repository_getInstance s) as [repo s'] eqn:Er.
        destruct (alloc (OService (mk repo)) s') as [l' s''] eqn:Ea. simpl.
        apply repository_getInstance_extends. rewrite Er. simpl.
        pose proof (alloc_fresh (OService (mk repo)) s') as Hf.
        rewrite Ea in Hf. exact Hf.
      * subst l s1. unfold getInstance. rewrite E. unfold new.
        destruct (repository_getInstance s) as [repo s'] eqn:Er.
        destruct (alloc (OService (mk repo)) s') as [l' s''] eqn:Ea. simpl.
        exists repo.
        pose proof (alloc_lookup (OService (mk repo)) s') as Hl.
        rewrite Ea in Hl. exact Hl.
Qed.
End Singleton.

(** ** The user router *)

Section RouterFacts.
Context {Store : Type} (env : Env Store).

(** The shape shared by the handlers that check a role: the role check,
    one awaited service call and the response, inside [try]/[catch]. *)
Lemma role_checked_call (admitted : list string) (payload : Value)
    (c : Call) (p : Async Store Value) (respond : Value -> Response)
    (w : World Store) :
  async_fn
    (try_catch_next
       (bind (lift (validRole env admitted payload)) (fun _ =>
        bind (await c p) (fun v => ret (respond v))))) w
  = if existsb (role_is (prop payload "role")) admitted
    then (match (p (store w)).1 with
          | inr v => Responded (respond v)
          | inl e => NextError e
          end,
          mkWorld (p (store w)).2 (calls w ++ [c]))
    else (NextError (roleError env admitted payload), w).
Proof.
  unfold async_fn, try_catch_next, bind, lift, validRole, await, ret.
  destruct (existsb _ admitted); [|reflexivity].
  destruct (p (store w)) as [[e|v] st]; reflexivity.
Qed.

Lemma with_payload {A} (l : gmap string Value) (payload : Value)
    (k : Value -> M A) (w : World Store) :
  locals_payload l = inr payload ->
  bind (lift (locals_payload l)) k w = k payload w.
Proof.
  intros ->. reflexivity.
Qed.

Lemma async_fn_with_payload (l : gmap string Value) (payload : Value)
    (k : Value -> M Outcome) (w : World Store) :
  locals_payload l = inr payload ->
  async_fn (bind (lift (locals_payload l)) k) w = async_fn (k payload) w.
Proof.
  intros H. unfold async_fn. rewrite (with_payload l payload k w H).
  reflexivity.
Qed.

Lemma async_fn_converts (v : Value) (k : unit -> M Outcome) (w : World Store) :
  unconvertible v = false ->
  async_fn (bind (lift (converts v)) k) w = async_fn (k tt) w.
Proof.
  intros H. unfold async_fn, bind, lift, converts. rewrite H. reflexivity.
Qed.


(** C3: on GET /:id, when the id check records no error and the token
    middlewares pass the request on with the caller's payload, a USER or
    ADMIN payload makes the handler fetch the user by the id of the route
    and answer 200 with [{user}] (an error of the service goes to
    [next]); a payload with any other role is refused by the role check
    before the service is called. *)
Theorem get_id_requires_user_or_admin (req : Request)
    (l l1 l2 : gmap string Value) (payload : Value) (w : World Store) :
  check_id env req = [] ->
  extractToken env req l = inl l1 ->
  verifyToken env req l1 = inl l2 ->
  locals_payload l2 = inr payload ->
  let id := get (params req) "id" in
  run_route (router_get_id env) req l w
  = if orb (role_is (prop payload "role") Roles.USER)
           (role_is (prop payload "role") Roles.ADMIN)
    then (match (getAUserById (service env) id (store w)).1 with
          | inr user =>
              Responded (mkResponse HttpStatus.OK (Json (VObj {[ "user" := user ]})))
          | inl e => NextError e
          end,
          mkWorld (getAUserById (service env) id (store w)).2
                  (calls w ++ [GetAUserById id]))
    else (NextError (roleError env [Roles.USER; Roles.ADMIN] payload), w).
Proof.
  intros Hid Hx Hv Hp id.
  unfold run_route; simpl.
  unfold validation, token, fieldsValidator_mw; simpl.
  rewrite Hid, Hx; simpl. rewrite Hv; simpl.
  unfold get_id.
  rewrite (async_fn_with_payload l2 payload _ w Hp).
  rewrite role_checked_call. simpl. rewrite orb_false_r.
  reflexivity.
Qed.

Lemma user_is_not_admin (v : Value) :
  role_is v Roles.ADMIN = true -> role_is v Roles.USER = false.
Proof.
  destruct v as [| | | |s| |]; simpl; try discriminate.
  intros H. apply String.eqb_eq in H. subst s. reflexivity.
Qed.

(** C6: on PUT /:id, when the id check records no error and
    [passwordExists] passes the request on without an error, a payload
    passes the role check exactly when its role is USER: then the handler
    calls the modify-user operation with the id of the route and the user
    object and answers 200 with [{modifiedUser}] (an error of the service
    goes to [next]); otherwise, and in particular for an ADMIN payload, the
    role check refuses it before the service is called. *)
Theorem put_id_requires_user (req : Request) (l : gmap string Value)
    (payload : Value) (w : World Store) :
  check_id env req = [] ->
  passwordExists env req = inl [] ->
  locals_payload l = inr payload ->
  let id := get (params req) "id" in
  let user := VObj (modified_user_of (body req)) in
  run_route (router_put_id env) req l w
  = (if role_is (prop payload "role") Roles.USER
     then (match (modifyAUserById (service env) id user (store w)).1 with
           | inr modifiedUser =>
               Responded (mkResponse HttpStatus.OK
                            (Json (VObj {[ "modifiedUser" := modifiedUser ]})))
           | inl e => NextError e
           end,
           mkWorld (modifyAUserById (service env) id user (store w)).2
                   (calls w ++ [ModifyAUserById id user]))
     else (NextError (roleError env [Roles.USER] payload), w))
  /\ (role_is (prop payload "role") Roles.ADMIN = true ->
      run_route (router_put_id env) req l w
      = (NextError (roleError env [Roles.USER] payload), w)).
Proof.
  intros Hid Hpw Hp id user.
  assert (E : run_route (router_put_id env) req l w
              = async_fn
                  (try_catch_next
                     (bind (lift (validRole env [Roles.USER] payload)) (fun _ =>
                      bind (await (ModifyAUserById id user)
                              (modifyAUserById (service env) id user))
                        (fun modifiedUser =>
                           ret (json HttpStatus.OK "modifiedUser" modifiedUser))))) w).
  { unfold run_route; simpl.
    unfold validation, passwordExists_mw, fieldsValidator_mw; simpl.
    rewrite Hid, Hpw; simpl.
    unfold put_id.
    rewrite (async_fn_with_payload l payload _ w Hp). reflexivity. }
  rewrite E, role_checked_call. simpl. rewrite orb_false_r.
  split; [reflexivity|].
  intros Hadmin. rewrite (user_is_not_admin _ Hadmin). reflexivity.
Qed.

(** *** Validation of the id *)





(** On GET /:id the token middlewares decide first: when [extractToken]
    ends the request, that is the outcome of the route, whatever the id. *)
Lemma get_id_token_first (req : Request) (l : gmap string Value)
    (o : Outcome) (w : World Store) :
  extractToken env req l = inr o ->
  run_route (router_get_id env) req l w = (o, w).
Proof.
  intros H. unfold run_route; simpl. unfold validation, token; simpl.
  rewrite H. reflexivity.
Qed.

(** *** Defaults of the list request *)


(** *** The update object of PUT /:id *)

Lemma get_insert_ne (b : gmap string Value) (k k' : string) (v : Value) :
  k <> k' -> get (<[ k := v ]> b) k' = get b k'.
Proof.
  intros H. unfold get. rewrite lookup_insert_ne by exact H. reflexivity.
Qed.

Lemma modified_user_of_frame (b : gmap string Value) (email role : Value) :
  modified_user_of (<[ "email" := email ]> (<[ "role" := role ]> b))
  = modified_user_of b.
Proof.
  unfold modified_user_of.
  rewrite !get_insert_ne by discriminate. reflexivity.
Qed.

(** C10: on PUT /:id the object passed to the modify-user operation has
    exactly the properties firstName, lastName, password and phone, each
    with the value the request body has for it; it has no email and no
    role property; the handler awaits no other service call; and setting
    email and role of the body to anything leaves the whole run of the
    handler as it was. *)
Theorem put_id_update_fields (req : Request) (l : gmap string Value)
    (w : World Store) :
  let user := modified_user_of (body req) in
  dom user = {[ "firstName"; "lastName"; "password"; "phone" ]}
  /\ user !! "firstName" = Some (get (body req) "firstName")
  /\ user !! "lastName" = Some (get (body req) "lastName")
  /\ user !! "password" = Some (get (body req) "password")
  /\ user !! "phone" = Some (get (body req) "phone")
  /\ user !! "email" = None
  /\ user !! "role" = None
  /\ (calls (put_id env req l w).2 = calls w
      \/ calls (put_id env req l w).2
         = (calls w ++ [ModifyAUserById (get (params req) "id") (VObj user)])%list)
  /\ (forall email role : Value,
        put_id env
          (with_body req (<[ "email" := email ]> (<[ "role" := role ]> (body req))))
          l w
        = put_id env req l w).
Proof.
  intros user. subst user.
  split; [|repeat split].
  - unfold modified_user_of.
    rewrite !dom_insert_L, dom_singleton_L. set_solver.
  - unfold put_id, async_fn, try_catch_next, bind, lift, await, ret.
    destruct (locals_payload l) as [e|payload]; [left; reflexivity|].
    destruct (validRole env [Roles.USER] payload); [left; reflexivity|].
    destruct (modifyAUserById _ _ _ _) as [[e|v] st]; right; reflexivity.
  - intros email role. unfold put_id, with_body; simpl.
    rewrite modified_user_of_frame. reflexivity.
Qed.

(** *** Errors of the lower layers *)

(** A handler that wraps its calls in [try]/[catch] hands every error of
    the role check and of the service to [next]: once the page and size are
    converted (GET /) and the caller's payload is read, its promise is
    never rejected. *)
Lemma try_catch_handlers_forward (h : TryCatchHandler) (req : Request)
    (l : gmap string Value) (payload : Value) (w : World Store) (e : Thrown) :
  unconvertible (get (query req) "page") = false ->
  unconvertible (get (query req) "size") = false ->
  locals_payload l = inr payload ->
  (try_catch_handler env h req l w).1 <> Rejected e.
Proof.
  intros Hpage Hsize Hp.
  destruct h; simpl;
    unfold get_root, get_id, post_login, put_address_id, put_id, delete_id;
    rewrite ?(async_fn_converts _ _ w Hpage);
    rewrite ?(async_fn_converts _ _ w Hsize);
    rewrite ?(async_fn_with_payload l payload _ w Hp);
    unfold async_fn, try_catch_next;
    match goal with
    | |- context [match ?b w with _ => _ end] => destruct (b w) as [[?|?] ?]
    end; simpl; discriminate.
Qed.

(** POST / has no [try]/[catch]: once the body is destructured, an error
    of [addAUser] rejects the promise of the handler. *)
Lemma post_root_rejects (req : Request) (l : gmap string Value)
    (first : Value) (w : World Store) (e : Thrown) (st : Store) :
  first_of (get (body req) "address") = inr first ->
  object_pattern first = inr first ->
  addAUser (service env) (new_user_of (body req) first) (store w) = (inl e, st) ->
  post_root env req l w
  = (Rejected e, mkWorld st (calls w ++ [AddAUser (new_user_of (body req) first)])).
Proof.
  intros Hf Ho Hs.
  unfold post_root, async_fn, bind, lift, await.
  rewrite Hf, Ho, Hs. reflexivity.
Qed.
End RouterFacts.

(** ** The router on concrete requests *)

Example get_root_admin_lists :
  run_route (router_get_root Demo.ok_env) Demo.list_request
    (Demo.locals_of Roles.ADMIN) Demo.w0
  = (Responded (mkResponse 200
       (Json (VObj {[ "users" := VObj {[ "sortedBy" := VStr "+name" ]} ]}))),
     mkWorld 1 [GetAllUsers (mkPagination num_0 num_5) (VStr "+name")]).
Proof. vm_compute. reflexivity. Qed.

Example get_root_user_refused :
  run_route (router_get_root Demo.ok_env) Demo.list_request
    (Demo.locals_of Roles.USER) Demo.w0
  = (NextError Demo.forbidden, Demo.w0).
Proof. vm_compute. reflexivity. Qed.

Example get_id_user_fetches :
  run_route (router_get_id Demo.ok_env) Demo.user_request ∅ Demo.w0
  = (Responded (mkResponse 200
       (Json (VObj {[ "user" := VObj {[ "_id" := VStr Demo.id1 ]} ]}))),
     mkWorld 1 [GetAUserById (VStr Demo.id1)]).
Proof. vm_compute. reflexivity. Qed.

Example delete_id_bad_id :
  run_route (router_delete_id Demo.ok_env) Demo.bad_id_request
    (Demo.locals_of Roles.USER) Demo.w0
  = (Responded (mkResponse 422
       (Errors [mkValidationError "params" "id" (VStr "abc") "it is not a valid id"])),
     Demo.w0).
Proof. vm_compute. reflexivity. Qed.

Example put_id_service_error_goes_to_next :
  put_id Demo.failing_env Demo.user_request (Demo.locals_of Roles.USER) Demo.w0
  = (NextError Demo.duplicate_email,
     mkWorld 1 [ModifyAUserById (VStr Demo.id1)
                  (VObj {[ "firstName" := VStr "Ada";
                           "lastName" := VUndefined;
                           "password" := VStr "new password";
                           "phone" := VUndefined ]})]).
Proof. vm_compute. reflexivity. Qed.

(** C1 does not hold for POST /: the handler has no [try]/[catch], so when
    [addAUser] fails on a valid new user the error rejects the promise of
    the handler and [next] is not called, although the service was invoked;
    on the same failure the handler of PUT /:id calls [next] with it. *)
Theorem post_root_service_error_not_forwarded :
  (post_root Demo.failing_env Demo.post_user ∅ Demo.w0).1
  = Rejected Demo.duplicate_email
  /\ (forall e, (post_root Demo.failing_env Demo.post_user ∅ Demo.w0).1
                <> NextError e)
  /\ (exists user,
        (post_root Demo.failing_env Demo.post_user ∅ Demo.w0).2
        = mkWorld 1 [AddAUser user])
  /\ (put_id Demo.failing_env Demo.user_request
        (Demo.locals_of Roles.USER) Demo.w0).1
     = NextError Demo.duplicate_email.
Proof.
  split; [vm_compute; reflexivity|].
  split; [intros e; vm_compute; discriminate|].
  split; [eexists; vm_compute; reflexivity|].
  vm_compute; reflexivity.
Qed.


(** ** The theorems at concrete requests *)


Lemma get_id_requires_user_or_admin_witness :
  check_id Demo.ok_env Demo.user_request = []
  /\ extractToken Demo.ok_env Demo.user_request ∅ = inl Demo.token_locals
  /\ verifyToken Demo.ok_env Demo.user_request Demo.token_locals
     = inl Demo.verified_locals
  /\ locals_payload Demo.verified_locals = inr Demo.user_payload
  /\ run_route (router_get_id Demo.ok_env) Demo.user_request ∅ Demo.w0
     = (Responded (mkResponse 200
          (Json (VObj {[ "user" := VObj {[ "_id" := VStr Demo.id1 ]} ]}))),
        mkWorld 1 [GetAUserById (VStr Demo.id1)]).
Proof.
  repeat (split; [vm_compute; reflexivity|]).
  etransitivity.
  - exact (get_id_requires_user_or_admin Demo.ok_env Demo.user_request
             ∅ Demo.token_locals Demo.verified_locals Demo.user_payload Demo.w0
             eq_refl eq_refl eq_refl eq_refl).
  - vm_compute. reflexivity.
Defined.

Lemma put_id_requires_user_witness :
  check_id Demo.ok_env Demo.user_request = []
  /\ passwordExists Demo.ok_env Demo.user_request = inl []
  /\ locals_payload (Demo.locals_of Roles.USER) = inr Demo.user_payload
  /\ run_route (router_put_id Demo.ok_env) Demo.user_request
       (Demo.locals_of Roles.USER) Demo.w0
     = (Responded (mkResponse 200
          (Json (VObj {[ "modifiedUser" := VObj {[ "_id" := VStr Demo.id1 ]} ]}))),
        mkWorld 1 [ModifyAUserById (VStr Demo.id1)
                     (VObj (modified_user_of (body Demo.user_request)))]).
Proof.
  repeat (split; [vm_compute; reflexivity|]).
  etransitivity.
  - exact (proj1 (put_id_requires_user Demo.ok_env Demo.user_request
                    (Demo.locals_of Roles.USER) Demo.user_payload Demo.w0
                    eq_refl eq_refl eq_refl)).
  - vm_compute. reflexivity.
Defined.



(** * Further properties *)

(** ** The furniture singletons *)

Section FurnitureInvariant.
Import FurnitureService FurnitureStates.

Lemma alloc_preserves (o o' : Obj) (s : Statics) (k : ref) :
  heap s !! k = Some o -> heap (alloc o' s).2 !! k = Some o.
Proof.
  intros H. unfold alloc; simpl.
  rewrite lookup_insert_ne; [exact H|].
  intros E. pose proof (alloc_fresh o' s) as Hf.
  unfold alloc in Hf; simpl in Hf. rewrite E in Hf. congruence.
Qed.

Lemma repository_getInstance_sets (s : Statics) :
  repository_instance (repository_getInstance s).2
  = Some (repository_getInstance s).1.
Proof.
  unfold repository_getInstance.
  destruct (repository_instance s) eqn:E; simpl; [exact E|reflexivity].
Qed.

Lemma repository_getInstance_instance (s : Statics) :
  instance (repository_getInstance s).2 = instance s.
Proof.
  unfold repository_getInstance.
  destruct (repository_instance s); reflexivity.
Qed.

Lemma repository_getInstance_consistent (s : Statics) :
  consistent s -> consistent (repository_getInstance s).2.
Proof.
  intros H. unfold repository_getInstance.
  destruct (repository_instance s) as [r|] eqn:E; [exact H|].
  destruct H as [Hs _].
  split; simpl.
  - intros l Hl. destruct (Hs l Hl) as (r & _ & Hr'). congruence.
  - intros r Hr'. injection Hr' as <-. apply lookup_insert_eq.
Qed.

Lemma new_instance (s : Statics) : instance (new s).2 = instance s.
Proof.
  unfold new.
  pose proof (repository_getInstance_instance s) as H.
  destruct (repository_getInstance s) as [repo s1]. exact H.
Qed.

Lemma new_lookup (s : Statics) :
  heap (new s).2 !! (new s).1
  = Some (OService (mk (repository_getInstance s).1))
  /\ repository_instance (new s).2 = Some (repository_getInstance s).1.
Proof.
  unfold new.
  pose proof (repository_getInstance_sets s) as H.
  destruct (repository_getInstance s) as [repo s1]. simpl in *.
  split; [exact (alloc_lookup (OService (mk repo)) s1)|exact H].
Qed.

Lemma new_fresh (s : Statics) : heap s !! (new s).1 = None.
Proof.
  unfold new.
  destruct (repository_getInstance s) as [repo s1] eqn:E.
  apply repository_getInstance_extends. rewrite E.
  exact (alloc_fresh (OService (mk repo)) s1).
Qed.

Lemma new_consistent (s : Statics) : consistent s -> consistent (new s).2.
Proof.
  intros H. apply repository_getInstance_consistent in H.
  unfold new. destruct (repository_getInstance s) as [repo s1].
  simpl in H. destruct H as [Hs Hr]. split.
  - intros l Hl. destruct (Hs l Hl) as (r & Hh & Hr').
    exists r. split; [|exact Hr'].
    apply alloc_preserves, Hh.
  - intros r Hr'. apply alloc_preserves, Hr, Hr'.
Qed.

Lemma getInstance_consistent (s : Statics) :
  consistent s -> consistent (getInstance s).2.
Proof.
  intros H. unfold getInstance.
  destruct (instance s) as [l|] eqn:E; [exact H|].
  pose proof (new_consistent s H) as [Hs Hr].
  pose proof (new_lookup s) as [Hl Hrepo].
  destruct (new s) as [l s1]. simpl in *. split; simpl.
  - intros l' Hl'. injection Hl' as <-.
    exists (repository_getInstance s).1. split; assumption.
  - exact Hr.
Qed.

(** X1: in every state a program reaches from the initial one by calling
    [FurnitureService.getInstance], [FurnitureRepository.getInstance] or
    the public constructor [new FurnitureService()], in any order, the
    service singleton, when set, is a service object whose [repository]
    field is the repository singleton, and the repository singleton, when
    set, is a repository object. *)
Theorem reachable_consistent (s : Statics) : reachable s -> consistent s.
Proof.
  induction 1 as [|s s' _ IH Hstep].
  - split; simpl; intros ? ?; discriminate.
  - destruct Hstep.
    + apply getInstance_consistent, IH.
    + apply repository_getInstance_consistent, IH.
    + apply new_consistent, IH.
Qed.

(** X2: the constructor is public and does not touch the static field: it
    returns a new object and leaves [FurnitureService.instance] as it was,
    so when the field is unset a later [getInstance] constructs another
    object, different from the one [new] returned. *)
Theorem new_is_not_the_singleton (s : Statics) :
  heap s !! (new s).1 = None
  /\ instance (new s).2 = instance s
  /\ (instance s = None -> (getInstance (new s).2).1 <> (new s).1).
Proof.
  split; [apply new_fresh|]. split; [apply new_instance|].
  intros Hnone E.
  pose proof (new_lookup s) as [Hl _].
  assert (Hi : instance (new s).2 = None) by (rewrite new_instance; exact Hnone).
  unfold getInstance in E. rewrite Hi in E.
  pose proof (new_fresh (new s).2) as Hf.
  destruct (new (new s).2) as [l2 s2]. simpl in *.
  rewrite E in Hf. congruence.
Qed.
End FurnitureInvariant.

Lemma reachable_consistent_witness :
  FurnitureStates.reachable
    (FurnitureService.getInstance FurnitureStates.init).2
  /\ FurnitureStates.consistent
       (FurnitureService.getInstance FurnitureStates.init).2.
Proof.
  assert (H : FurnitureStates.reachable
                (FurnitureService.getInstance FurnitureStates.init).2).
  { apply (FurnitureStates.reachable_step FurnitureStates.init).
    - apply FurnitureStates.reachable_init.
    - apply FurnitureStates.step_getInstance. }
  split; [exact H|].
  exact (reachable_consistent _ H).
Defined.

Lemma new_is_not_the_singleton_witness :
  FurnitureService.instance FurnitureStates.init = None
  /\ (FurnitureService.getInstance
        (FurnitureService.new FurnitureStates.init).2).1
     <> (FurnitureService.new FurnitureStates.init).1.
Proof.
  split; [reflexivity|].
  exact (proj2 (proj2 (new_is_not_the_singleton FurnitureStates.init)) eq_refl).
Defined.

(** ** More on the user router *)

Section RouterMore.
Context {Store : Type} (env : Env Store).

Lemma put_address_chain (req : Request) (l : gmap string Value)
    (w : World Store) :
  run_route (router_put_address_id env) req l w
  = match put_address_errors env req with
    | [] => put_address_id env req l w
    | errs =>
        (Responded (mkResponse HttpStatus.UNPROCESSABLE_ENTITY (Errors errs)), w)
    end.
Proof.
  unfold run_route; simpl. unfold validation, fieldsValidator_mw; simpl.
  rewrite <- !app_assoc. fold (put_address_errors env req).
  destruct (put_address_errors env req); reflexivity.
Qed.

(** X4: on PUT /address/:id, when none of the five checks records an error,
    a USER payload makes the handler call [addAnUserAddress] with the id of
    the route and an address object that has exactly the properties
    country, state, street, city and roomNumber, and answer 200 with
    [{result}] (an error of the service goes to [next]); every other
    payload, ADMIN included, is refused before the service is called. *)
Theorem put_address_id_requires_user (req : Request) (l : gmap string Value)
    (payload : Value) (w : World Store) :
  put_address_errors env req = [] ->
  locals_payload l = inr payload ->
  let id := get (params req) "id" in
  let address := address_of (VObj (body req)) in
  run_route (router_put_address_id env) req l w
  = (if role_is (prop payload "role") Roles.USER
     then (match (addAnUserAddress (service env) id address (store w)).1 with
           | inr result =>
               Responded (mkResponse HttpStatus.OK
                            (Json (VObj {[ "result" := result ]})))
           | inl e => NextError e
           end,
           mkWorld (addAnUserAddress (service env) id address (store w)).2
                   (calls w ++ [AddAnUserAddress id address]))
     else (NextError (roleError env [Roles.USER] payload), w))
  /\ (role_is (prop payload "role") Roles.ADMIN = true ->
      run_route (router_put_address_id env) req l w
      = (NextError (roleError env [Roles.USER] payload), w))
  /\ (exists fields,
        address = VObj fields
        /\ dom fields = {[ "country"; "state"; "street"; "city"; "roomNumber" ]}
        /\ forall k, k ∈ dom fields -> fields !! k = Some (get (body req) k)).
Proof.
  intros Herr Hp id address.
  assert (E : run_route (router_put_address_id env) req l w
              = async_fn
                  (try_catch_next
                     (bind (lift (validRole env [Roles.USER] payload)) (fun _ =>
                      bind (await (AddAnUserAddress id address)
                              (addAnUserAddress (service env) id address))
                        (fun result => ret (json HttpStatus.OK "result" result))))) w).
  { rewrite put_address_chain, Herr. unfold put_address_id.
    rewrite (async_fn_with_payload l payload _ w Hp). reflexivity. }
  rewrite E, role_checked_call. simpl. rewrite orb_false_r.
  split; [reflexivity|]. split.
  - intros Hadmin. rewrite (user_is_not_admin _ Hadmin). reflexivity.
  - eexists. split; [reflexivity|]. split.
    + rewrite !dom_insert_L, dom_singleton_L. set_solver.
    + intros k Hk.
      rewrite !dom_insert_L, dom_singleton_L in Hk.
      set_unfold in Hk. destruct_or!; subst k; reflexivity.
Qed.

(** X5: on PUT /address/:id the five checks all run and their errors are
    reported together, in the order of the route: with any error recorded
    the answer is 422 with the whole list and the handler is not reached;
    with none the handler runs with [res.locals] as it came in. *)
Theorem put_address_id_reports_all_errors (req : Request)
    (l : gmap string Value) (w : World Store) :
  run_route (router_put_address_id env) req l w
  = match (check_id env req
           ++ check "country" "The country is required" (not_empty env) req
           ++ check "state" "The state is required" (not_empty env) req
           ++ check "street" "The street is required" (not_empty env) req
           ++ check "city" "The city is required" (not_empty env) req)%list with
    | [] => put_address_id env req l w
    | errs =>
        (Responded (mkResponse HttpStatus.UNPROCESSABLE_ENTITY (Errors errs)), w)
    end.
Proof.
  rewrite put_address_chain. unfold put_address_errors. reflexivity.
Qed.

(** X6: on DELETE /:id, when the id check records no error, a USER or ADMIN
    payload makes the handler call [deleteAUserById] with the id of the
    route and answer 204 with no body, whatever value the service returns
    (an error of the service goes to [next]); a payload with any other role
    is refused before the service is called. *)
Theorem delete_id_requires_user_or_admin (req : Request)
    (l : gmap string Value) (payload : Value) (w : World Store) :
  check_id env req = [] ->
  locals_payload l = inr payload ->
  let id := get (params req) "id" in
  run_route (router_delete_id env) req l w
  = if orb (role_is (prop payload "role") Roles.USER)
           (role_is (prop payload "role") Roles.ADMIN)
    then (match (deleteAUserById (service env) id (store w)).1 with
          | inr _ => Responded (mkResponse HttpStatus.NO_CONTENT NoBody)
          | inl e => NextError e
          end,
          mkWorld (deleteAUserById (service env) id (store w)).2
                  (calls w ++ [DeleteAUserById id]))
    else (NextError (roleError env [Roles.USER; Roles.ADMIN] payload), w).
Proof.
  intros Hid Hp id.
  assert (E : run_route (router_delete_id env) req l w
              = async_fn
                  (try_catch_next
                     (bind (lift (validRole env [Roles.USER; Roles.ADMIN] payload))
                        (fun _ =>
                         bind (await (DeleteAUserById id)
                                 (deleteAUserById (service env) id))
                           (fun _ => ret (mkResponse HttpStatus.NO_CONTENT NoBody)))))
                  w).
  { unfold run_route; simpl. unfold validation, fieldsValidator_mw; simpl.
    rewrite Hid; simpl. unfold delete_id.
    rewrite (async_fn_with_payload l payload _ w Hp). reflexivity. }
  rewrite E.
  rewrite (role_checked_call env [Roles.USER; Roles.ADMIN] payload
             (DeleteAUserById id) (deleteAUserById (service env) id)
             (fun _ => mkResponse HttpStatus.NO_CONTENT NoBody) w).
  simpl. rewrite orb_false_r.
  destruct (deleteAUserById (service env) id (store w)) as [[e|v] st];
    reflexivity.
Qed.

(** X7: the five handlers that check a role read [res.locals.payload]
    before their [try] block: when it is [undefined] or [null] the
    promise of the handler is rejected with a TypeError, [next] is not
    called and the service is not called. The TypeError is the one of the
    destructuring, except on GET / when a conversion of the page or the
    size has thrown before it. *)
Theorem missing_payload_rejects (h : TryCatchHandler) (req : Request)
    (l : gmap string Value) (w : World Store) :
  h <> H_post_login ->
  get l "payload" = VUndefined \/ get l "payload" = VNull ->
  try_catch_handler env h req l w
  = (Rejected
       (TypeError
          match h with
          | H_get_root =>
              if orb (unconvertible (get (query req) "page"))
                     (unconvertible (get (query req) "size"))
              then "Cannot convert object to primitive value"
              else "Cannot destructure property 'payload'"
          | _ => "Cannot destructure property 'payload'"
          end), w).
Proof.
  intros Hh Hl.
  assert (E : locals_payload l
              = inl (TypeError "Cannot destructure property 'payload'")).
  { unfold locals_payload. destruct Hl as [-> | ->]; reflexivity. }
  destruct h; try congruence; simpl;
    unfold get_root, get_id, put_address_id, put_id, delete_id,
      async_fn, bind, lift, converts;
    try (destruct (unconvertible (get (query req) "page")); simpl;
         [reflexivity|]);
    try (destruct (unconvertible (get (query req) "size")); simpl;
         [reflexivity|]);
    rewrite E; reflexivity.
Qed.

(** X8: POST / destructures [address: [{ ... }]] with no [try] around it:
    when the address of the body is not iterable (absent, [null], a
    boolean, a number, an object), is empty, or starts with [undefined] or
    [null], the promise of the handler is rejected with a TypeError and the
    service is not called. *)
Theorem post_root_bad_address_rejects (req : Request)
    (l : gmap string Value) (w : World Store) :
  match get (body req) "address" with
  | VArr (first :: _) => first = VUndefined \/ first = VNull
  | VStr (String _ _) => False
  | _ => True
  end ->
  exists msg, post_root env req l w = (Rejected (TypeError msg), w).
Proof.
  intros H. unfold post_root, async_fn, bind, lift.
  destruct (get (body req) "address") as [| | | |s|items|]; simpl;
    try (eexists; reflexivity).
  - destruct s; [eexists; reflexivity|destruct H].
  - destruct items as [|first items]; [eexists; reflexivity|].
    simpl. destruct H as [-> | ->]; eexists; reflexivity.
Qed.

Lemma new_user_of_address (b : gmap string Value) (v first : Value) :
  new_user_of (<[ "address" := v ]> b) first = new_user_of b first.
Proof.
  unfold new_user_of. rewrite !get_insert_ne by discriminate. reflexivity.
Qed.

(** X9: POST / keeps the first address only: the items after the first one
    do not change anything in the run of the handler, which is the run on
    the body whose address array holds the first item alone. *)
Theorem post_root_keeps_first_address (req : Request) (first : Value)
    (rest : list Value) (l : gmap string Value) (w : World Store) :
  get (body req) "address" = VArr (first :: rest) ->
  post_root env req l w
  = post_root env
      (with_body req (<[ "address" := VArr [first] ]> (body req))) l w.
Proof.
  intros H. unfold post_root, with_body; simpl.
  rewrite H. unfold get at 1. rewrite lookup_insert_eq. simpl.
  unfold async_fn, bind, lift. simpl.
  destruct (object_pattern first) as [e|first']; [reflexivity|].
  rewrite new_user_of_address. reflexivity.
Qed.

(** X10: POST / with an address array that starts with an object calls
    [addAUser] once, with a user whose role and email are the ones of the
    body and whose address array has one item, made of the five address
    properties of the first item; it answers 201 with [{result}] when the
    service succeeds. No role is checked and [res.locals] is not read. *)
Theorem post_root_creates_with_body_role (req : Request)
    (a : gmap string Value) (rest : list Value) (l : gmap string Value)
    (w : World Store) :
  get (body req) "address" = VArr (VObj a :: rest) ->
  let user := new_user_of (body req) (VObj a) in
  post_root env req l w
  = (match (addAUser (service env) user (store w)).1 with
     | inr result =>
         Responded (mkResponse HttpStatus.CREATED
                      (Json (VObj {[ "result" := result ]})))
     | inl e => Rejected e
     end,
     mkWorld (addAUser (service env) user (store w)).2
             (calls w ++ [AddAUser user]))
  /\ prop user "role" = get (body req) "role"
  /\ prop user "email" = get (body req) "email"
  /\ prop user "address"
     = VArr [VObj {[ "country" := get a "country";
                     "state" := get a "state";
                     "street" := get a "street";
                     "city" := get a "city";
                     "roomNumber" := get a "roomNumber" ]}].
Proof.
  intros H user. split; [|repeat split].
  unfold post_root, async_fn, bind, lift, await, ret. rewrite H. simpl.
  fold user.
  destruct (addAUser (service env) user (store w)) as [[e|v] st]; reflexivity.
Qed.

Ltac run_handler :=
  unfold get_root, get_id, post_login, put_address_id, put_id, delete_id,
    post_root, async_fn, try_catch_next, bind, lift, await, ret.

(** X11: a response a handler sends itself has the status and body of its
    route: 200 with the single property users, user, result or
    modifiedUser on GET /, GET /:id, POST /login, PUT /address/:id and
    PUT /:id, 204 with no body on DELETE /:id, and 201 with the single
    property result on POST /. *)
Theorem handler_responses (h : TryCatchHandler) (req : Request)
    (l : gmap string Value) (w : World Store) (r : Response) :
  ((try_catch_handler env h req l w).1 = Responded r ->
   match h with
   | H_get_root =>
       exists v, r = mkResponse 200 (Json (VObj {[ "users" := v ]}))
   | H_get_id =>
       exists v, r = mkResponse 200 (Json (VObj {[ "user" := v ]}))
   | H_post_login | H_put_address_id =>
       exists v, r = mkResponse 200 (Json (VObj {[ "result" := v ]}))
   | H_put_id =>
       exists v, r = mkResponse 200 (Json (VObj {[ "modifiedUser" := v ]}))
   | H_delete_id => r = mkResponse 204 NoBody
   end)
  /\ ((post_root env req l w).1 = Responded r ->
      exists v, r = mkResponse 201 (Json (VObj {[ "result" := v ]}))).
Proof.
  split.
  - destruct h; simpl; run_handler; unfold converts;
      try (destruct (unconvertible (get (query req) "page")); simpl;
           [discriminate|]);
      try (destruct (unconvertible (get (query req) "size")); simpl;
           [discriminate|]);
      try (destruct (locals_payload l) as [e|payload]; simpl;
           [discriminate|]);
      try (destruct (validRole env _ payload); simpl; [discriminate|]);
      match goal with
      | |- context [?p (store w)] => destruct (p (store w)) as [[e|v] st]
      end; simpl; intros H; try discriminate;
      injection H as <-; try reflexivity; eexists; reflexivity.
  - run_handler.
    destruct (first_of (get (body req) "address")) as [e|first]; simpl;
      [discriminate|].
    destruct (object_pattern first) as [e|first']; simpl; [discriminate|].
    destruct (addAUser _ _ _) as [[e|v] st]; simpl; intros H;
      [discriminate|].
    injection H as <-. eexists; reflexivity.
Qed.

(** X12: every handler awaits at most one call of the service, the one of
    its route with arguments taken from the request, and when it awaits
    none the store and the log are left as they were. *)
Theorem handlers_call_once (h : TryCatchHandler) (req : Request)
    (l : gmap string Value) (w : World Store) :
  let id := get (params req) "id" in
  let c :=
    match h with
    | H_get_root => GetAllUsers (pagination_of env req) (sorting_of req)
    | H_get_id => GetAUserById id
    | H_post_login =>
        GetAUserByEmail (get (body req) "email") (get (body req) "password")
    | H_put_address_id => AddAnUserAddress id (address_of (VObj (body req)))
    | H_put_id => ModifyAUserById id (VObj (modified_user_of (body req)))
    | H_delete_id => DeleteAUserById id
    end in
  ((try_catch_handler env h req l w).2 = w
   \/ exists st, (try_catch_handler env h req l w).2
                 = mkWorld st (calls w ++ [c]))
  /\ ((post_root env req l w).2 = w
      \/ exists st first,
           (post_root env req l w).2
           = mkWorld st (calls w ++ [AddAUser (new_user_of (body req) first)])).
Proof.
  intros id c. subst id c. split.
  - destruct h; simpl; run_handler; unfold converts;
      try (destruct (unconvertible (get (query req) "page")); simpl;
           [left; reflexivity|]);
      try (destruct (unconvertible (get (query req) "size")); simpl;
           [left; reflexivity|]);
      try (destruct (locals_payload l) as [e|payload]; simpl;
           [left; reflexivity|]);
      try (destruct (validRole env _ payload); simpl; [left; reflexivity|]);
      match goal with
      | |- context [?p (store w)] => destruct (p (store w)) as [[e|v] st]
      end; simpl; right; eexists; reflexivity.
  - run_handler.
    destruct (first_of (get (body req) "address")) as [e|first]; simpl;
      [left; reflexivity|].
    destruct (object_pattern first) as [e|first'] eqn:E; simpl;
      [left; reflexivity|].
    destruct (addAUser _ _ _) as [[e|v] st]; simpl; right;
      exists st, first'; reflexivity.
Qed.

End RouterMore.

(** ** The further theorems at concrete requests *)

Lemma put_address_id_requires_user_witness :
  put_address_errors Demo.ok_env Fixtures.address_request = []
  /\ locals_payload (Demo.locals_of Roles.USER) = inr Demo.user_payload
  /\ run_route (router_put_address_id Demo.ok_env) Fixtures.address_request
       (Demo.locals_of Roles.USER) Demo.w0
     = (Responded (mkResponse 200
          (Json (VObj {[ "result" := VObj {[ "_id" := VStr Demo.id1 ]} ]}))),
        mkWorld 1
          [AddAnUserAddress (VStr Demo.id1)
             (VObj {[ "country" := VStr "BE";
                      "state" := VStr "Brussels";
                      "street" := VStr "Rue Haute";
                      "city" := VStr "Brussels";
                      "roomNumber" := VUndefined ]})]).
Proof.
  repeat (split; [vm_compute; reflexivity|]).
  etransitivity.
  - exact (proj1 (put_address_id_requires_user Demo.ok_env
                    Fixtures.address_request (Demo.locals_of Roles.USER)
                    Demo.user_payload Demo.w0 eq_refl eq_refl)).
  - vm_compute. reflexivity.
Defined.

Lemma delete_id_requires_user_or_admin_witness :
  check_id Demo.ok_env Demo.user_request = []
  /\ locals_payload (Demo.locals_of Roles.ADMIN) = inr Demo.admin_payload
  /\ run_route (router_delete_id Demo.ok_env) Demo.user_request
       (Demo.locals_of Roles.ADMIN) Demo.w0
     = (Responded (mkResponse 204 NoBody),
        mkWorld 1 [DeleteAUserById (VStr Demo.id1)]).
Proof.
  repeat (split; [vm_compute; reflexivity|]).
  etransitivity.
  - exact (delete_id_requires_user_or_admin Demo.ok_env Demo.user_request
             (Demo.locals_of Roles.ADMIN) Demo.admin_payload Demo.w0
             eq_refl eq_refl).
  - vm_compute. reflexivity.
Defined.

Lemma missing_payload_rejects_witness :
  H_delete_id <> H_post_login
  /\ get (∅ : gmap string Value) "payload" = VUndefined
  /\ delete_id Demo.ok_env Demo.user_request ∅ Demo.w0
     = (Rejected (TypeError "Cannot destructure property 'payload'"), Demo.w0).
Proof.
  split; [discriminate|]. split; [reflexivity|].
  refine (missing_payload_rejects Demo.ok_env H_delete_id Demo.user_request
            ∅ Demo.w0 _ (or_introl eq_refl)).
  discriminate.
Defined.

Lemma post_root_bad_address_rejects_witness :
  get (body Fixtures.no_address_request) "address" = VUndefined
  /\ exists msg,
       post_root Demo.ok_env Fixtures.no_address_request ∅ Demo.w0
       = (Rejected (TypeError msg), Demo.w0).
Proof.
  split; [reflexivity|].
  exact (post_root_bad_address_rejects Demo.ok_env
           Fixtures.no_address_request ∅ Demo.w0 I).
Defined.

Lemma post_root_keeps_first_address_witness :
  get Fixtures.admin_body "address"
  = VArr [VObj Fixtures.home; Fixtures.office]
  /\ post_root Demo.ok_env (mkRequest Fixtures.admin_body ∅ ∅ ∅ ∅) ∅ Demo.w0
     = post_root Demo.ok_env
         (mkRequest (<[ "address" := VArr [VObj Fixtures.home] ]> Fixtures.admin_body)
            ∅ ∅ ∅ ∅) ∅ Demo.w0.
Proof.
  split; [reflexivity|].
  exact (post_root_keeps_first_address Demo.ok_env
           (mkRequest Fixtures.admin_body ∅ ∅ ∅ ∅) (VObj Fixtures.home)
           [Fixtures.office] ∅ Demo.w0 eq_refl).
Defined.

Lemma post_root_creates_with_body_role_witness :
  get Fixtures.admin_body "address"
  = VArr [VObj Fixtures.home; Fixtures.office]
  /\ prop (new_user_of Fixtures.admin_body (VObj Fixtures.home)) "role"
     = VStr Roles.ADMIN
  /\ (post_root Demo.ok_env (mkRequest Fixtures.admin_body ∅ ∅ ∅ ∅) ∅ Demo.w0).1
     = Responded (mkResponse 201
         (Json (VObj {[ "result" :=
            VObj {[ "created" :=
              new_user_of Fixtures.admin_body (VObj Fixtures.home) ]} ]}))).
Proof.
  split; [reflexivity|].
  destruct (post_root_creates_with_body_role Demo.ok_env
              (mkRequest Fixtures.admin_body ∅ ∅ ∅ ∅) Fixtures.home
              [Fixtures.office] ∅ Demo.w0 eq_refl) as (Hrun & Hrole & _).
  split.
  - etransitivity; [exact Hrole|reflexivity].
  - etransitivity; [exact (f_equal fst Hrun)|vm_compute; reflexivity].
Defined.

Lemma handler_responses_witness :
  (get_id Demo.ok_env Demo.user_request (Demo.locals_of Roles.USER) Demo.w0).1
  = Responded (mkResponse 200
      (Json (VObj {[ "user" := VObj {[ "_id" := VStr Demo.id1 ]} ]})))
  /\ exists v,
       mkResponse 200 (Json (VObj {[ "user" := VObj {[ "_id" := VStr Demo.id1 ]} ]}))
       = mkResponse 200 (Json (VObj {[ "user" := v ]})).
Proof.
  assert (H : (get_id Demo.ok_env Demo.user_request
                 (Demo.locals_of Roles.USER) Demo.w0).1
              = Responded (mkResponse 200
                  (Json (VObj {[ "user" := VObj {[ "_id" := VStr Demo.id1 ]} ]}))))
    by (vm_compute; reflexivity).
  split; [exact H|].
  exact (proj1 (handler_responses Demo.ok_env H_get_id Demo.user_request
                  (Demo.locals_of Roles.USER) Demo.w0 _) H).
Defined.

(** ** The order of decisions on GET /:id and PUT /:id *)

Section RouterChains.
Context {Store : Type} (env : Env Store).

(** X14: GET /:id decides in the order of its route: [extractToken], then
    [verifyToken], and only then the validation result. When a token
    middleware ends the request its outcome stands, even if the id is not
    valid; otherwise an id error gives 422 with the errors of the id check,
    and with no error the handler runs with the [res.locals] that
    [verifyToken] left. In the first three cases the store and the log are
    untouched. *)
Theorem get_id_route_order (req : Request) (l : gmap string Value)
    (w : World Store) :
  run_route (router_get_id env) req l w
  = match extractToken env req l with
    | inr o => (o, w)
    | inl l1 =>
        match verifyToken env req l1 with
        | inr o => (o, w)
        | inl l2 =>
            match check_id env req with
            | [] => get_id env req l2 w
            | errs =>
                (Responded (mkResponse HttpStatus.UNPROCESSABLE_ENTITY
                              (Errors errs)), w)
            end
        end
    end.
Proof.
  unfold run_route; simpl. unfold validation, token, fieldsValidator_mw; simpl.
  destruct (extractToken env req l) as [l1|o]; simpl; [|reflexivity].
  destruct (verifyToken env req l1) as [l2|o]; simpl; [|reflexivity].
  destruct (check_id env req); reflexivity.
Qed.

(** X15: PUT /:id decides in the order of its route: when [passwordExists]
    ends the request its outcome stands; otherwise the errors of the id
    check followed by those [passwordExists] recorded give 422 when there
    is any, and with none the handler runs with [res.locals] as it came
    in. The route runs no token middleware. *)
Theorem put_id_route_order (req : Request) (l : gmap string Value)
    (w : World Store) :
  run_route (router_put_id env) req l w
  = match passwordExists env req with
    | inr o => (o, w)
    | inl more =>
        match (check_id env req ++ more)%list with
        | [] => put_id env req l w
        | errs =>
            (Responded (mkResponse HttpStatus.UNPROCESSABLE_ENTITY
                          (Errors errs)), w)
        end
    end.
Proof.
  unfold run_route; simpl.
  unfold validation, passwordExists_mw, fieldsValidator_mw; simpl.
  destruct (passwordExists env req) as [more|o]; simpl; [|reflexivity].
  destruct (check_id env req ++ more)%list; reflexivity.
Qed.
End RouterChains.
